(** * fpreputils: the build descriptor [setup.py] and the package initializer
    [fpreputils/__init__.py]

    Both files are module-level Python scripts.  [setup.py] lists [bin/] with
    [glob.glob] and hands the result to [setuptools.setup]; [__init__.py]
    reads the installed version with [importlib.metadata.version] and then
    imports the sibling module [fmriprep].

    What the scripts see of the outside world is made explicit:
    - the working directory of the build is a tree of named nodes, each
      directory keeping its entries in the order [os.scandir] reports them;
    - [sys.argv] is a list of strings;
    - the installed distributions are a finite map from distribution name to
      the [Version] field of its metadata;
    - the sibling module [fmriprep] is either absent, or its body runs to the
      end, or its body raises.

    POSIX path conventions are used throughout ([/] is the only separator,
    file names are case sensitive).  The standard library itself is taken to
    be importable. *)

From Stdlib Require Import String Ascii List Bool.
From stdpp Require Import base option list strings gmap.

Set Warnings "-register-all".

Local Open Scope string_scope.
Local Open Scope list_scope.

(** ** Python values that the two scripts build *)

Inductive value :=
  | VNone
  | VBool (b : bool)
  | VStr (s : string)
  | VList (items : list value)
  | VFunction (qualname : string)
  | VModule (qualname : string).

(** A Python list of [str]. *)
Definition str_list (l : list string) : value := VList (List.map VStr l).

(** ** The file system seen from the build directory *)

Inductive node :=
  | File
  | Dir (entries : list (string * node)).

(** A directory listing, in [os.scandir] order. *)
Abbreviation directory := (list (string * node)).

Fixpoint lookup_entry (name : string) (d : directory) : option node :=
  match d with
  | [] => None
  | (n, x) :: rest => if String.eqb n name then Some x else lookup_entry name rest
  end.

(** ** [posixpath] *)

Module os_path.

Definition is_sep (c : ascii) : bool := Ascii.eqb c "/".

(** [p[:i], p[i:]] for [i = p.rfind("/") + 1]. *)
Fixpoint cut_after_last_sep (p : string) : string * string :=
  match p with
  | EmptyString => (EmptyString, EmptyString)
  | String c rest =>
      match cut_after_last_sep rest with
      | (EmptyString, tail) =>
          if is_sep c then (String c EmptyString, tail)
          else (EmptyString, String c tail)
      | (head, tail) => (String c head, tail)
      end
  end.

(** [s.rstrip("/")] *)
Fixpoint rstrip_sep (s : string) : string :=
  match s with
  | EmptyString => EmptyString
  | String c rest =>
      match rstrip_sep rest with
      | EmptyString => if is_sep c then EmptyString else String c EmptyString
      | rest' => String c rest'
      end
  end.

Definition all_sep (s : string) : bool :=
  forallb is_sep (list_ascii_of_string s).

(** [posixpath.split]: the head loses its trailing separators unless it
    consists of separators only. *)
Definition split (p : string) : string * string :=
  let '(head, tail) := cut_after_last_sep p in
  if negb (String.eqb head "") && negb (all_sep head)
  then (rstrip_sep head, tail)
  else (head, tail).

Definition startswith_sep (s : string) : bool :=
  match s with
  | String c _ => is_sep c
  | EmptyString => false
  end.

Fixpoint endswith_sep (s : string) : bool :=
  match s with
  | EmptyString => false
  | String c EmptyString => is_sep c
  | String _ rest => endswith_sep rest
  end.

(** [posixpath.join] of two components. *)
Definition join (a b : string) : string :=
  if startswith_sep b || String.eqb a "" then b
  else if endswith_sep a then a +:+ b
  else a +:+ "/" +:+ b.

End os_path.

(** ** [fnmatch] *)

Module fnmatch.

(** The regular expression that [fnmatch.translate] builds, for patterns
    made of [*], [?] and ordinary characters. *)
Inductive token :=
  | Star
  | AnyChar
  | Lit (c : ascii).

(** Bracket expressions are not covered: a pattern with a [[] has no
    translation here. *)
Fixpoint translate (pat : string) : option (list token) :=
  match pat with
  | EmptyString => Some []
  | String c rest =>
      if Ascii.eqb c "[" then None
      else
        toks ← translate rest;
        Some ((if Ascii.eqb c "*" then Star
               else if Ascii.eqb c "?" then AnyChar
               else Lit c) :: toks)
  end.

(** Whole-string match ([re.match] of a pattern closed by [\Z], with the
    [s] flag so that [.] matches every character). *)
Fixpoint re_match (toks : list token) (s : string) : bool :=
  match toks with
  | [] => String.eqb s ""
  | Lit c :: toks' =>
      match s with
      | String d rest => Ascii.eqb c d && re_match toks' rest
      | EmptyString => false
      end
  | AnyChar :: toks' =>
      match s with
      | String _ rest => re_match toks' rest
      | EmptyString => false
      end
  | Star :: toks' =>
      (fix star (s : string) : bool :=
         re_match toks' s ||
         match s with
         | String _ rest => star rest
         | EmptyString => false
         end) s
  end.

(** [fnmatch.filter(names, pat)] *)
Definition filter (names : list string) (pat : string) : option (list string) :=
  toks ← translate pat;
  Some (List.filter (re_match toks) names).

End fnmatch.

(** ** [glob] *)

Module glob.

Definition is_magic_char (c : ascii) : bool :=
  Ascii.eqb c "*" || Ascii.eqb c "?" || Ascii.eqb c "[".

(** [magic_check.search(s) is not None] for [magic_check = ([*?[])]. *)
Definition has_magic (s : string) : bool :=
  existsb is_magic_char (list_ascii_of_string s).

(** [path[0] == "."]; [os.scandir] never reports an empty name, for which
    Python would raise. *)
Definition _ishidden (path : string) : bool :=
  match path with
  | String c _ => Ascii.eqb c "."
  | EmptyString => false
  end.

(** [_listdir(dirname)] for a [dirname] that is one plain path component:
    the names [os.scandir] yields, and no name at all when [os.scandir]
    raises [OSError] (no such entry, or not a directory). *)
Definition _listdir (cwd : directory) (dirname : string) : list string :=
  match lookup_entry dirname cwd with
  | Some (Dir entries) => List.map fst entries
  | Some File | None => []
  end.

Definition _glob1 (cwd : directory) (dirname pattern : string)
  : option (list string) :=
  let names := _listdir cwd dirname in
  let names :=
    if negb (_ishidden pattern)
    then List.filter (fun x => negb (_ishidden x)) names
    else names in
  fnmatch.filter names pattern.

(** One name below the working directory: not empty, no separator, and
    neither [.] nor [..]. *)
Definition plain_component (s : string) : bool :=
  negb (String.eqb s "") && negb (String.eqb s ".") && negb (String.eqb s "..")
  && negb (existsb os_path.is_sep (list_ascii_of_string s)).

(** [glob.glob(pathname)] with the default [recursive=False] and
    [include_hidden=False], for the patterns on which [_iglob] takes
    [dirs = [dirname]] and [glob_in_dir = _glob1]: a literal directory name
    followed by a basename with wildcards.  [None] marks a pattern outside
    that fragment. *)
Definition glob (cwd : directory) (pathname : string) : option (list string) :=
  let '(dirname, basename) := os_path.split pathname in
  if has_magic pathname && plain_component dirname
     && negb (has_magic dirname) && has_magic basename
  then
    names ← _glob1 cwd dirname basename;
    Some (List.map (os_path.join dirname) names)
  else None.

End glob.

(** ** [setup.py] *)

(** A call with keyword arguments only, the arguments in source order. *)
Record call := Call { callee : string; kwargs : list (string * value) }.

Fixpoint kwarg (key : string) (kws : list (string * value)) : option value :=
  match kws with
  | [] => None
  | (k, v) :: rest => if String.eqb k key then Some v else kwarg key rest
  end.

Section SetupPy.

(** [setuptools.find_packages()], called without arguments: some function of
    the build directory.  Nothing below depends on which. *)
Variable find_packages : directory -> list string.

(** [bin_scripts = glob.glob("bin/*")] *)
Definition bin_scripts (cwd : directory) : option (list string) :=
  glob.glob cwd "bin/*".

(** The script, run with [sys.argv = argv] in the directory [cwd], up to its
    call of [setup]; the result is that call.  The script never reads
    [sys.argv]. *)
Definition setup_py (argv : list string) (cwd : directory) : option call :=
  scripts ← bin_scripts cwd;
  Some (Call "setup"
          [ ("name", VStr "fpreputils");
            ("version", VStr "0.1");
            ("packages", str_list (find_packages cwd));
            ("install_requires", VList []);
            ("include_package_data", VBool true);
            ("scripts", str_list scripts) ]).

(** The [scripts] argument that reaches [setup]. *)
Definition scripts_passed (argv : list string) (cwd : directory) : option value :=
  c ← setup_py argv cwd;
  kwarg "scripts" (kwargs c).

End SetupPy.

(** The reading of "the files present under [bin/]" that the specification
    uses: the regular files directly below [bin/], as paths relative to the
    build directory. *)
Definition is_file (n : node) : bool :=
  match n with
  | File => true
  | Dir _ => false
  end.

(** What [bin/] holds: nothing when there is no directory of that name. *)
Definition bin_entries (cwd : directory) : directory :=
  match lookup_entry "bin" cwd with
  | Some (Dir entries) => entries
  | Some File | None => []
  end.

Definition files_under_bin (cwd : directory) : list string :=
  List.map (fun e => "bin/" +:+ fst e)
    (List.filter (fun e => is_file (snd e)) (bin_entries cwd)).

(** A name that [os.scandir] can report: not empty and without separator. *)
Definition valid_name (s : string) : bool :=
  negb (String.eqb s "") && negb (existsb os_path.is_sep (list_ascii_of_string s)).

(** [set_entry name n d]: the directory [d] with the entry [name] created or
    replaced by [n]. *)
Fixpoint set_entry (name : string) (n : node) (d : directory) : directory :=
  match d with
  | [] => [(name, n)]
  | (k, x) :: rest =>
      if String.eqb k name then (k, n) :: rest else (k, x) :: set_entry name n rest
  end.

(** ** [fpreputils/__init__.py] *)

Inductive exn :=
  | PackageNotFoundError (name : string)
  | ImportError (name : string)
  | OtherException (description : string).

(** What running the body of a module does.  The source of [fmriprep] is
    not at hand, so both outcomes are kept. *)
Inductive body :=
  | RunsToEnd
  | Raises (e : exn).

(** The interpreter's surroundings at import time.  [distributions] maps the
    name of each installed distribution to the [Version] field of its
    metadata, [None] when the metadata has no such field.  [submodules] maps
    the name of each module found in the package directory to what its body
    does. *)
Record environment := {
  distributions : gmap string (option string);
  submodules : gmap string body
}.

(** What the import does to the outside, in order. *)
Inductive event :=
  | MetadataLookup (distribution_name : string)
  | ImportModule (qualname : string).

Record state := {
  globals : gmap string value;
  trace : list event
}.

(** Statements run on a state; they end normally with a result or raise. *)
Definition py (A : Type) : Type := state -> state * (exn + A).

Definition ret {A} (a : A) : py A := fun st => (st, inr a).

Definition raise {A} (e : exn) : py A := fun st => (st, inl e).

Definition bind {A B} (c : py A) (k : A -> py B) : py B :=
  fun st =>
    match c st with
    | (st', inr a) => k a st'
    | (st', inl e) => (st', inl e)
    end.

Notation "x <- c ;; k" := (bind c (fun x => k))
  (at level 100, c at next level, right associativity).
Notation "c ;; k" := (bind c (fun _ => k))
  (at level 100, right associativity).

Definition log (e : event) : py unit :=
  fun st => ({| globals := globals st; trace := trace st ++ [e] |}, inr tt).

(** [name = v] at module level. *)
Definition store (name : string) (v : value) : py unit :=
  fun st => ({| globals := <[name := v]> (globals st); trace := trace st |}, inr tt).

(** [from importlib.metadata import version]: a standard-library import. *)
Definition import_version : py value :=
  log (ImportModule "importlib.metadata") ;;
  ret (VFunction "importlib.metadata.version").

(** [importlib.metadata.version(distribution_name)] *)
Definition version (env : environment) (distribution_name : string) : py value :=
  log (MetadataLookup distribution_name) ;;
  match distributions env !! distribution_name with
  | None => raise (PackageNotFoundError distribution_name)
  | Some (Some v) => ret (VStr v)
  | Some None => ret VNone
  end.

(** [from . import name] inside the package [package], [name] not being
    bound in the package yet. *)
Definition import_from (env : environment) (package name : string) : py value :=
  log (ImportModule (package +:+ "." +:+ name)) ;;
  match submodules env !! name with
  | None => raise (ImportError name)
  | Some (Raises e) => raise e
  | Some RunsToEnd => ret (VModule (package +:+ "." +:+ name))
  end.

(** The body of [__init__.py], statement by statement. *)
Definition __init__ (env : environment) : py unit :=
  f <- import_version ;;
  store "version" f ;;
  v <- version env "fpreputils" ;;
  store "__version__" v ;;
  m <- import_from env "fpreputils" "fmriprep" ;;
  store "fmriprep" m ;;
  store "__all__" (VList [VStr "fmriprep"]).

(** The module starts empty; the attributes the import machinery sets itself
    ([__name__], [__path__], ...) are left out. *)
Definition fresh : state := {| globals := ∅; trace := [] |}.

(** [import fpreputils]: the namespace of the package, or the exception that
    ended its body. *)
Definition import_package (env : environment) : exn + gmap string value :=
  match __init__ env fresh with
  | (st, inr _) => inr (globals st)
  | (_, inl e) => inl e
  end.

(** ** Sample inputs *)

(** [bin/] holding exactly [run.sh] and [check.sh]. *)
Definition bin_run_check : directory :=
  [("bin", Dir [("run.sh", File); ("check.sh", File)])].

(** [bin/] holding a dot file next to a script. *)
Definition bin_with_hidden : directory :=
  [("bin", Dir [(".hidden", File); ("run.sh", File)])].

(** A checkout with a dot file and a subdirectory in [bin/], and a [shell/]
    directory beside it. *)
Definition checkout : directory :=
  [ ("setup.py", File);
    ("fpreputils", Dir [("__init__.py", File); ("fmriprep.py", File)]);
    ("bin", Dir [("run.sh", File); (".hidden", File);
                 ("helpers", Dir [("common.sh", File)]); ("check.sh", File)]);
    ("shell", Dir [("env.sh", File)]) ].

(** The claim that the scripts are the files under [bin/], as sets. *)
Definition glob_correctness (cwd : directory) : Prop :=
  exists scripts,
    bin_scripts cwd = Some scripts /\
    forall p, In p scripts <-> In p (files_under_bin cwd).

(** The package installed with its metadata, [fmriprep] importable. *)
Definition env_installed : environment :=
  {| distributions := {[ "fpreputils" := Some "0.1" ]};
     submodules := {[ "fmriprep" := RunsToEnd ]} |}.

(** The package on the path without being installed: no metadata. *)
Definition env_no_metadata : environment :=
  {| distributions := ∅;
     submodules := {[ "fmriprep" := RunsToEnd ]} |}.

(** Metadata installed, but no [fmriprep] module in the package. *)
Definition env_no_fmriprep : environment :=
  {| distributions := {[ "fpreputils" := Some "0.1" ]};
     submodules := ∅ |}.

(** Metadata installed, and a [fmriprep] whose own imports fail. *)
Definition env_broken_fmriprep : environment :=
  {| distributions := {[ "fpreputils" := Some "0.1" ]};
     submodules := {[ "fmriprep" := Raises (ImportError "nibabel") ]} |}.

Definition import_fails (env : environment) : Prop :=
  exists e, import_package env = inl e.

Definition metadata_not_found (env : environment) : Prop :=
  distributions env !! "fpreputils" = None.

(** Metadata installed with an empty [Version] field; [fmriprep]
    importable. *)
Definition env_empty_version : environment :=
  {| distributions := {[ "fpreputils" := Some "" ]};
     submodules := {[ "fmriprep" := RunsToEnd ]} |}.

(** The distribution is installed and its metadata has a [Version]. *)
Definition installed_with_metadata (env : environment) : Prop :=
  exists v, distributions env !! "fpreputils" = Some (Some v).

(** The claim that an installed package imports and exposes the non-empty
    version string of its metadata. *)
Definition version_claim (env : environment) : Prop :=
  installed_with_metadata env ->
  exists ns v,
    import_package env = inr ns /\
    distributions env !! "fpreputils" = Some (Some v) /\
    ns !! "__version__" = Some (VStr v) /\
    v <> "".

(** The names of [bin/] that do not begin with a dot, in listing order. *)
Definition visible_names (cwd : directory) : list string :=
  List.filter (fun x => negb (glob._ishidden x)) (List.map fst (bin_entries cwd)).

(** A checkout without [bin/]. *)
Definition no_bin : directory :=
  [ ("setup.py", File);
    ("fpreputils", Dir [("__init__.py", File); ("fmriprep.py", File)]) ].

(** [bin/] holding dot files only. *)
Definition bin_only_hidden : directory :=
  [("setup.py", File); ("bin", Dir [(".gitkeep", File); (".DS_Store", File)])].

(** [env_installed] with another distribution installed and another module in
    the package. *)
Definition env_crowded : environment :=
  {| distributions := {[ "fpreputils" := Some "0.1"; "nibabel" := Some "5.2.0" ]};
     submodules := {[ "fmriprep" := RunsToEnd; "utils" := Raises (OtherException "boom") ]} |}.

(** * Facts *)

(** ** Strings, paths and patterns *)

Lemma split_bin_star : os_path.split "bin/*" = ("bin", "*").
Proof. reflexivity. Qed.

Lemma re_match_star (s : string) : fnmatch.re_match [fnmatch.Star] s = true.
Proof.
  induction s as [|c s IH]; [reflexivity|].
  simpl in *. exact IH.
Qed.

Lemma filter_all {A} (f : A -> bool) (l : list A) :
  (forall x, f x = true) -> List.filter f l = l.
Proof.
  intros Hf. induction l as [|x l IH]; simpl; [reflexivity|].
  rewrite Hf, IH. reflexivity.
Qed.

Lemma fnmatch_filter_star (names : list string) :
  fnmatch.filter names "*" = Some names.
Proof.
  unfold fnmatch.filter. simpl.
  f_equal. apply filter_all. exact re_match_star.
Qed.

Lemma valid_name_no_leading_sep (s : string) :
  valid_name s = true -> os_path.startswith_sep s = false.
Proof.
  unfold valid_name. destruct s as [|c s]; [reflexivity|].
  simpl. destruct (os_path.is_sep c); simpl; [discriminate|reflexivity].
Qed.

Lemma join_bin (name : string) :
  os_path.startswith_sep name = false ->
  os_path.join "bin" name = "bin/" +:+ name.
Proof. intros H. unfold os_path.join. rewrite H. reflexivity. Qed.

Lemma join_bin_leading_sep (name : string) :
  os_path.startswith_sep name = true -> os_path.join "bin" name = name.
Proof. intros H. unfold os_path.join. rewrite H. reflexivity. Qed.

(** A joined path that reads [bin/x] comes from the name [x]. *)
Lemma join_bin_inv (name x : string) :
  os_path.join "bin" name = "bin/" +:+ x -> name = x.
Proof.
  destruct (os_path.startswith_sep name) eqn:E.
  - rewrite (join_bin_leading_sep _ E). intros ->.
    simpl in E. discriminate.
  - rewrite (join_bin _ E). simpl. intros H. injection H. auto.
Qed.

Lemma str_list_inj (l1 l2 : list string) : str_list l1 = str_list l2 -> l1 = l2.
Proof.
  unfold str_list. intros H. injection H as H. revert l2 H.
  induction l1 as [|x l1 IH]; intros [|y l2] H; simpl in H; try discriminate.
  - reflexivity.
  - injection H as -> H. f_equal. auto.
Qed.

(** ** The glob of [setup.py] *)

(** [bin_scripts] never leaves the modelled fragment of [glob.glob], and
    lists the names of [bin/] that do not begin with a dot. *)
Lemma bin_scripts_eq (cwd : directory) :
  bin_scripts cwd =
  Some (List.map (os_path.join "bin")
          (List.filter (fun x => negb (glob._ishidden x)) (glob._listdir cwd "bin"))).
Proof.
  unfold bin_scripts, glob.glob. rewrite split_bin_star.
  change (glob.has_magic "bin/*" && glob.plain_component "bin"
          && negb (glob.has_magic "bin") && glob.has_magic "*") with true.
  cbv iota. unfold glob._glob1.
  change (negb (glob._ishidden "*")) with true. cbv iota.
  rewrite fnmatch_filter_star. reflexivity.
Qed.

Lemma listdir_bin_entries (cwd : directory) :
  glob._listdir cwd "bin" = List.map fst (bin_entries cwd).
Proof.
  unfold glob._listdir, bin_entries.
  destruct (lookup_entry "bin" cwd) as [[|entries]|]; reflexivity.
Qed.

Lemma listdir_bin (cwd : directory) (entries : directory) :
  lookup_entry "bin" cwd = Some (Dir entries) ->
  glob._listdir cwd "bin" = List.map fst entries.
Proof. intros H. unfold glob._listdir. rewrite H. reflexivity. Qed.

(** No [bin/], or a regular file of that name: [os.scandir] raises, the
    glob swallows the error and there are no scripts. *)
Example bin_scripts_no_bin :
  bin_scripts [("setup.py", File)] = Some [] /\
  bin_scripts [("setup.py", File); ("bin", File)] = Some [].
Proof. split; reflexivity. Qed.

Example bin_scripts_checkout :
  bin_scripts checkout = Some ["bin/run.sh"; "bin/helpers"; "bin/check.sh"].
Proof. reflexivity. Qed.

Lemma scripts_passed_eq find_packages argv cwd :
  scripts_passed find_packages argv cwd = str_list <$> bin_scripts cwd.
Proof.
  unfold scripts_passed, setup_py. destruct (bin_scripts cwd); reflexivity.
Qed.

Lemma lookup_set_entry_ne (name other : string) (n : node) (d : directory) :
  name <> other -> lookup_entry other (set_entry name n d) = lookup_entry other d.
Proof.
  intros Hne. induction d as [|[k x] d IH]; simpl.
  - destruct (String.eqb_spec name other); [contradiction|reflexivity].
  - destruct (String.eqb_spec k name) as [->|Hk]; simpl.
    + destruct (String.eqb_spec name other); [contradiction|reflexivity].
    + rewrite IH. reflexivity.
Qed.

(** ** Claims about [setup.py] *)

(** C1: the scripts should be the files under [bin/], as the comment
    "All files in bin/" beside the glob says, and are not: with [bin/]
    holding the regular files [.hidden] and [run.sh], the glob returns
    [bin/run.sh] alone, so the file [bin/.hidden] under [bin/] is not among
    the scripts. *)
Theorem C1_hidden_file_not_listed :
  bin_scripts bin_with_hidden = Some ["bin/run.sh"] /\
  files_under_bin bin_with_hidden = ["bin/.hidden"; "bin/run.sh"] /\
  ~ glob_correctness bin_with_hidden.
Proof.
  split; [reflexivity|]. split; [reflexivity|].
  intros (scripts & Hs & Hiff).
  rewrite bin_scripts_eq in Hs. injection Hs as <-.
  assert (Hin : In "bin/.hidden" (files_under_bin bin_with_hidden))
    by (simpl; auto).
  apply Hiff in Hin. simpl in Hin.
  destruct Hin as [H|[]]. discriminate H.
Qed.

(** What the glob lists: the paths [bin/<name>] of the entries of [bin/]
    whose name does not begin with a dot, in listing order.  When each entry
    is a regular file exactly if its name does not begin with a dot, that
    list is the list of files under [bin/]. *)
Lemma scripts_are_visible_entries
    (find_packages : directory -> list string) (argv : list string)
    (cwd : directory) :
  Forall (fun e => valid_name (fst e) = true) (bin_entries cwd) ->
  scripts_passed find_packages argv cwd =
    Some (str_list
            (List.map (fun e => "bin/" +:+ fst e)
               (List.filter (fun e => negb (glob._ishidden (fst e)))
                  (bin_entries cwd))))
  /\ ((forall e, In e (bin_entries cwd) ->
                 is_file (snd e) = negb (glob._ishidden (fst e))) ->
      scripts_passed find_packages argv cwd = Some (str_list (files_under_bin cwd))).
Proof.
  intros Hvalid.
  assert (Heq : scripts_passed find_packages argv cwd =
    Some (str_list
            (List.map (fun e => "bin/" +:+ fst e)
               (List.filter (fun e => negb (glob._ishidden (fst e)))
                  (bin_entries cwd))))).
  { rewrite scripts_passed_eq, bin_scripts_eq, listdir_bin_entries. simpl.
    do 2 f_equal.
    induction (bin_entries cwd) as [|[name n] entries IH]; [reflexivity|].
    inversion Hvalid as [|? ? Hname Hrest]; subst. simpl in *.
    destruct (glob._ishidden name); simpl.
    - apply IH, Hrest.
    - rewrite (join_bin name (valid_name_no_leading_sep _ Hname)).
      f_equal. apply IH, Hrest. }
  split; [exact Heq|].
  intros Hfiles. rewrite Heq. unfold files_under_bin.
  do 3 f_equal. clear Heq Hvalid.
  induction (bin_entries cwd) as [|e entries IH]; [reflexivity|].
  simpl. rewrite (Hfiles e (or_introl eq_refl)).
  rewrite IH by (intros e' He'; apply Hfiles; right; exact He').
  reflexivity.
Qed.

(** C5: the script calls [setup] with exactly the keywords [name],
    [version], [packages], [install_requires] (empty),
    [include_package_data] and [scripts], the last being the result of the
    glob over [bin/]; the command line has no influence on the call. *)
Theorem C5_setup_keywords
    (find_packages : directory -> list string) (argv : list string)
    (cwd : directory) :
  exists scripts,
    glob.glob cwd "bin/*" = Some scripts /\
    setup_py find_packages argv cwd =
      Some (Call "setup"
              [ ("name", VStr "fpreputils");
                ("version", VStr "0.1");
                ("packages", str_list (find_packages cwd));
                ("install_requires", VList []);
                ("include_package_data", VBool true);
                ("scripts", str_list scripts) ]) /\
    forall argv', setup_py find_packages argv' cwd = setup_py find_packages argv cwd.
Proof.
  pose proof (bin_scripts_eq cwd) as H. unfold bin_scripts in H.
  eexists. split; [exact H|]. split; [|reflexivity].
  unfold setup_py, bin_scripts. rewrite H. reflexivity.
Qed.

(** C6: whatever list the glob returns is the [scripts] argument of
    [setup], element for element and in the same order. *)
Theorem C6_glob_result_passed_unchanged
    (find_packages : directory -> list string) (argv : list string)
    (cwd : directory) (result : list string) :
  glob.glob cwd "bin/*" = Some result ->
  scripts_passed find_packages argv cwd = Some (str_list result)
  /\ forall l, scripts_passed find_packages argv cwd = Some (str_list l) -> l = result.
Proof.
  intros H.
  assert (Heq : scripts_passed find_packages argv cwd = Some (str_list result)).
  { rewrite scripts_passed_eq. unfold bin_scripts. rewrite H. reflexivity. }
  split; [exact Heq|].
  intros l Hl. rewrite Heq in Hl. injection Hl as Hl.
  symmetry. apply str_list_inj. unfold str_list. f_equal. exact Hl.
Qed.

Lemma C6_checkout :
  scripts_passed (fun _ => ["fpreputils"]) ["setup.py"; "sdist"] checkout =
    Some (str_list ["bin/run.sh"; "bin/helpers"; "bin/check.sh"])
  /\ forall l,
       scripts_passed (fun _ => ["fpreputils"]) ["setup.py"; "sdist"] checkout =
         Some (str_list l) ->
       l = ["bin/run.sh"; "bin/helpers"; "bin/check.sh"].
Proof.
  apply (C6_glob_result_passed_unchanged (fun _ => ["fpreputils"])
           ["setup.py"; "sdist"] checkout
           ["bin/run.sh"; "bin/helpers"; "bin/check.sh"]).
  reflexivity.
Defined.

(** C8: with [bin/] a directory, no path [bin/.x] is among the scripts;
    every entry whose name does not begin with a dot is, a subdirectory as
    much as a regular file; and the scripts are fixed by the names in [bin/]
    alone, whatever the names stand for. *)
Theorem C8_hidden_skipped_any_type_listed
    (find_packages : directory -> list string) (argv : list string)
    (cwd entries : directory) :
  lookup_entry "bin" cwd = Some (Dir entries) ->
  exists scripts,
    scripts_passed find_packages argv cwd = Some (str_list scripts) /\
    (forall rest, ~ In ("bin/" +:+ String "." rest) scripts) /\
    (forall name n,
        In (name, n) entries ->
        valid_name name = true ->
        (forall rest, name <> String "." rest) ->
        In ("bin/" +:+ name) scripts) /\
    (forall cwd' entries',
        lookup_entry "bin" cwd' = Some (Dir entries') ->
        List.map fst entries' = List.map fst entries ->
        scripts_passed find_packages argv cwd' = Some (str_list scripts)).
Proof.
  intros Hbin.
  eexists. split.
  { rewrite scripts_passed_eq, bin_scripts_eq, (listdir_bin _ _ Hbin).
    reflexivity. }
  split; [|split].
  - intros rest Hin.
    apply in_map_iff in Hin as (name & Hjoin & Hname).
    apply join_bin_inv in Hjoin. subst name.
    apply filter_In in Hname as [_ Hvis]. discriminate Hvis.
  - intros name n Hin Hvalid Hdot.
    rewrite <- (join_bin name (valid_name_no_leading_sep _ Hvalid)).
    apply in_map. apply filter_In. split.
    + apply in_map_iff. exists (name, n). split; [reflexivity|exact Hin].
    + destruct name as [|c name]; [reflexivity|]. simpl.
      destruct (Ascii.eqb_spec c "."%char) as [->|]; [|reflexivity].
      exfalso. exact (Hdot name eq_refl).
  - intros cwd' entries' Hbin' Hnames.
    rewrite scripts_passed_eq, bin_scripts_eq, (listdir_bin _ _ Hbin'), Hnames.
    reflexivity.
Qed.

Lemma C8_checkout :
  exists scripts,
    scripts_passed (fun _ => ["fpreputils"]) ["setup.py"; "install"] checkout =
      Some (str_list scripts) /\
    ~ In "bin/.hidden" scripts /\
    In "bin/helpers" scripts /\
    In "bin/run.sh" scripts.
Proof.
  destruct (C8_hidden_skipped_any_type_listed (fun _ => ["fpreputils"])
              ["setup.py"; "install"] checkout
              [("run.sh", File); (".hidden", File);
               ("helpers", Dir [("common.sh", File)]); ("check.sh", File)]
              eq_refl)
    as (scripts & Hs & Hhidden & Hlisted & _).
  exists scripts. split; [exact Hs|]. split; [exact (Hhidden "hidden")|].
  split.
  - apply (Hlisted "helpers" (Dir [("common.sh", File)])).
    + simpl. auto.
    + reflexivity.
    + intros rest H. discriminate H.
  - apply (Hlisted "run.sh" File).
    + simpl. auto.
    + reflexivity.
    + intros rest H. discriminate H.
Defined.

(** C9: two build directories with the same [bin/] give the same scripts,
    whatever else they hold and whatever the command line; creating or
    replacing [shell/] in particular changes nothing. *)
Theorem C9_scripts_depend_on_bin_only
    (find_packages : directory -> list string) (argv1 argv2 : list string)
    (cwd1 cwd2 : directory) :
  lookup_entry "bin" cwd1 = lookup_entry "bin" cwd2 ->
  scripts_passed find_packages argv1 cwd1 = scripts_passed find_packages argv2 cwd2
  /\ forall shell,
       scripts_passed find_packages argv1 (set_entry "shell" shell cwd1) =
       scripts_passed find_packages argv2 cwd2.
Proof.
  intros Hbin.
  assert (Hdep : forall a b,
             lookup_entry "bin" a = lookup_entry "bin" b ->
             bin_scripts a = bin_scripts b).
  { intros a b Hab. rewrite !bin_scripts_eq. unfold glob._listdir.
    rewrite Hab. reflexivity. }
  split.
  - rewrite !scripts_passed_eq. f_equal. apply Hdep, Hbin.
  - intros shell. rewrite !scripts_passed_eq. f_equal. apply Hdep.
    rewrite lookup_set_entry_ne by discriminate. exact Hbin.
Qed.

Lemma C9_checkout_without_shell :
  scripts_passed (fun _ => ["fpreputils"]) ["setup.py"; "install"] checkout =
  scripts_passed (fun _ => ["fpreputils"]) ["setup.py"; "sdist"]
    [("bin", Dir [("run.sh", File); (".hidden", File);
                  ("helpers", Dir [("common.sh", File)]); ("check.sh", File)])].
Proof.
  apply (C9_scripts_depend_on_bin_only (fun _ => ["fpreputils"])
           ["setup.py"; "install"] ["setup.py"; "sdist"] checkout
           [("bin", Dir [("run.sh", File); (".hidden", File);
                         ("helpers", Dir [("common.sh", File)]);
                         ("check.sh", File)])]).
  reflexivity.
Defined.

(** ** Runs of [__init__.py] *)

Lemma run_metadata_missing (env : environment) :
  distributions env !! "fpreputils" = None ->
  __init__ env fresh =
    ({| globals := <["version" := VFunction "importlib.metadata.version"]> ∅;
        trace := [ImportModule "importlib.metadata"; MetadataLookup "fpreputils"] |},
     inl (PackageNotFoundError "fpreputils")).
Proof.
  intros H. unfold __init__, bind, import_version, version, bind, log, store, ret, raise.
  simpl. rewrite H. reflexivity.
Qed.

Lemma run_metadata_found (env : environment) (ov : option string) :
  distributions env !! "fpreputils" = Some ov ->
  let v := match ov with Some s => VStr s | None => VNone end in
  let before :=
    <["__version__" := v]>
      (<["version" := VFunction "importlib.metadata.version"]> ∅) in
  let events :=
    [ImportModule "importlib.metadata"; MetadataLookup "fpreputils";
     ImportModule "fpreputils.fmriprep"] in
  __init__ env fresh =
    match submodules env !! "fmriprep" with
    | Some RunsToEnd =>
        ({| globals :=
              <["__all__" := VList [VStr "fmriprep"]]>
                (<["fmriprep" := VModule "fpreputils.fmriprep"]> before);
            trace := events |}, inr tt)
    | Some (Raises e) => ({| globals := before; trace := events |}, inl e)
    | None => ({| globals := before; trace := events |}, inl (ImportError "fmriprep"))
    end.
Proof.
  intros H. unfold __init__, bind, import_version, version, import_from, bind,
    log, store, ret, raise.
  simpl. rewrite H.
  destruct ov; simpl;
    (destruct (submodules env !! "fmriprep") as [[|e]|]; reflexivity).
Qed.

(** The import fails exactly when the lookup or the import of [fmriprep]
    fails. *)
Lemma import_fails_iff (env : environment) :
  import_fails env <->
  metadata_not_found env \/ submodules env !! "fmriprep" <> Some RunsToEnd.
Proof.
  unfold import_fails, metadata_not_found, import_package.
  destruct (distributions env !! "fpreputils") as [ov|] eqn:Hd.
  - rewrite (run_metadata_found env ov Hd).
    destruct (submodules env !! "fmriprep") as [[|e]|]; split.
    + intros [e He]. discriminate He.
    + intros [H|H]; [discriminate H|contradiction].
    + intros _. right. discriminate.
    + intros _. eexists. reflexivity.
    + intros _. right. discriminate.
    + intros _. eexists. reflexivity.
  - rewrite (run_metadata_missing env Hd). split.
    + intros _. left. reflexivity.
    + intros _. eexists. reflexivity.
Qed.

(** A successful import: both steps succeeded, and the namespace is known. *)
Lemma import_succeeds_inv (env : environment) (ns : gmap string value) :
  import_package env = inr ns ->
  exists ov,
    distributions env !! "fpreputils" = Some ov /\
    submodules env !! "fmriprep" = Some RunsToEnd /\
    ns = <["__all__" := VList [VStr "fmriprep"]]>
           (<["fmriprep" := VModule "fpreputils.fmriprep"]>
              (<["__version__" := match ov with Some s => VStr s | None => VNone end]>
                 (<["version" := VFunction "importlib.metadata.version"]> ∅))).
Proof.
  unfold import_package.
  destruct (distributions env !! "fpreputils") as [ov|] eqn:Hd.
  - rewrite (run_metadata_found env ov Hd).
    destruct (submodules env !! "fmriprep") as [[|e]|]; try discriminate.
    intros H. injection H as <-. exists ov. auto.
  - rewrite (run_metadata_missing env Hd). discriminate.
Qed.

(** The events of a run: the lookup always, then the import of [fmriprep]
    if the lookup returned. *)
Lemma init_trace (env : environment) :
  trace (fst (__init__ env fresh)) =
    [ImportModule "importlib.metadata"; MetadataLookup "fpreputils"]
  \/ trace (fst (__init__ env fresh)) =
    [ImportModule "importlib.metadata"; MetadataLookup "fpreputils";
     ImportModule "fpreputils.fmriprep"].
Proof.
  destruct (distributions env !! "fpreputils") as [ov|] eqn:Hd.
  - right. rewrite (run_metadata_found env ov Hd).
    destruct (submodules env !! "fmriprep") as [[|e]|]; reflexivity.
  - left. rewrite (run_metadata_missing env Hd). reflexivity.
Qed.

(** ** Claims about [__init__.py] *)

(** C2, as stated, fails: with the metadata installed and no [fmriprep]
    module, the import fails although the metadata is found. *)
Lemma C2_fails_with_metadata_found :
  ~ (import_fails env_no_fmriprep <-> metadata_not_found env_no_fmriprep).
Proof.
  intros [Hfail _].
  assert (H : metadata_not_found env_no_fmriprep).
  { apply Hfail. apply import_fails_iff. right. discriminate. }
  discriminate H.
Qed.

(** C2, amended: the import fails exactly when the metadata of
    [fpreputils] is not found or the import of [fmriprep] fails.  When the
    metadata is not found, the lookup raises, the import ends with that very
    exception, the lookup was made once and nothing was attempted after
    it. *)
Theorem C2_failure_modes (env : environment) :
  (import_fails env <->
   metadata_not_found env \/ submodules env !! "fmriprep" <> Some RunsToEnd)
  /\ (metadata_not_found env ->
      exists e,
        (forall st, snd (version env "fpreputils" st) = inl e) /\
        import_package env = inl e /\
        trace (fst (__init__ env fresh)) =
          [ImportModule "importlib.metadata"; MetadataLookup "fpreputils"]).
Proof.
  split; [apply import_fails_iff|].
  intros Hd. exists (PackageNotFoundError "fpreputils").
  unfold metadata_not_found in Hd. split; [|split].
  - intros st. unfold version, bind, log, raise. simpl. rewrite Hd. reflexivity.
  - unfold import_package. rewrite (run_metadata_missing env Hd). reflexivity.
  - rewrite (run_metadata_missing env Hd). reflexivity.
Qed.

Lemma C2_no_metadata :
  import_package env_no_metadata = inl (PackageNotFoundError "fpreputils")
  /\ import_fails env_broken_fmriprep.
Proof.
  split.
  - destruct (proj2 (C2_failure_modes env_no_metadata) eq_refl)
      as (e & Hlookup & Himport & _).
    rewrite Himport. f_equal.
    specialize (Hlookup fresh). symmetry in Hlookup.
    injection Hlookup as ->. reflexivity.
  - apply (proj1 (C2_failure_modes env_broken_fmriprep)).
    right. discriminate.
Defined.

(** C3, as stated, fails in two ways.  With the metadata installed and no
    [fmriprep] module the import fails.  With an empty [Version] in the
    metadata the import succeeds and [__version__] is the empty string. *)
Lemma C3_import_can_fail_version_can_be_empty :
  ~ version_claim env_no_fmriprep /\ ~ version_claim env_empty_version.
Proof.
  split.
  - intros H. destruct H as (ns & v & Himport & _).
    + exists "0.1". reflexivity.
    + unfold import_package in Himport.
      rewrite (run_metadata_found env_no_fmriprep (Some "0.1") eq_refl) in Himport.
      discriminate Himport.
  - intros H. destruct H as (ns & v & _ & Hd & _ & Hv).
    + exists "". reflexivity.
    + apply Hv. change (Some (Some "") = Some (Some v)) in Hd.
      injection Hd as <-. reflexivity.
Qed.

(** C3, amended: installed with metadata that has a [Version], and with a
    [fmriprep] that imports, the package imports and [__version__] is the
    version string of the installed metadata, whatever that string is. *)
Theorem C3_version_exposed (env : environment) (v : string) :
  distributions env !! "fpreputils" = Some (Some v) ->
  submodules env !! "fmriprep" = Some RunsToEnd ->
  exists ns,
    import_package env = inr ns /\
    ns !! "__version__" = Some (VStr v).
Proof.
  intros Hd Hm.
  unfold import_package. rewrite (run_metadata_found env (Some v) Hd), Hm.
  eexists. split; [reflexivity|]. cbn [globals].
  rewrite lookup_insert_ne by discriminate.
  rewrite lookup_insert_ne by discriminate.
  apply lookup_insert_eq.
Qed.

Lemma C3_installed :
  exists ns,
    import_package env_installed = inr ns /\
    ns !! "__version__" = Some (VStr "0.1").
Proof.
  apply (C3_version_exposed env_installed "0.1"); reflexivity.
Defined.

(** C4: after a successful import, the attribute [fmriprep] of the package
    is the submodule [fpreputils.fmriprep]. *)
Theorem C4_fmriprep_attribute (env : environment) (ns : gmap string value) :
  import_package env = inr ns ->
  ns !! "fmriprep" = Some (VModule "fpreputils.fmriprep").
Proof.
  intros H. apply import_succeeds_inv in H as (ov & _ & _ & ->).
  rewrite lookup_insert_ne by discriminate.
  apply lookup_insert_eq.
Qed.

Lemma C4_installed :
  exists ns,
    import_package env_installed = inr ns /\
    ns !! "fmriprep" = Some (VModule "fpreputils.fmriprep").
Proof.
  destruct (import_package env_installed) as [e|ns] eqn:H.
  - exfalso. vm_compute in H. discriminate H.
  - exists ns. split; [reflexivity|].
    exact (C4_fmriprep_attribute env_installed ns H).
Defined.

(** C7: after a successful import, [__all__] is the one-element list
    [["fmriprep"]]; [__version__] is an attribute of the package and is not
    listed in [__all__]. *)
Theorem C7_all_lists_fmriprep_only (env : environment) (ns : gmap string value) :
  import_package env = inr ns ->
  exists exported,
    ns !! "__all__" = Some (VList exported) /\
    exported = [VStr "fmriprep"] /\
    length exported = 1 /\
    ~ In (VStr "__version__") exported /\
    is_Some (ns !! "__version__").
Proof.
  intros H. apply import_succeeds_inv in H as (ov & _ & _ & ->).
  exists [VStr "fmriprep"]. split; [apply lookup_insert_eq|].
  split; [reflexivity|]. split; [reflexivity|]. split.
  - intros [H|[]]. discriminate H.
  - rewrite lookup_insert_ne by discriminate.
    rewrite lookup_insert_ne by discriminate.
    rewrite lookup_insert_eq. eauto.
Qed.

Lemma C7_installed :
  exists ns exported,
    import_package env_installed = inr ns /\
    ns !! "__all__" = Some (VList exported) /\
    exported = [VStr "fmriprep"] /\
    length exported = 1 /\
    ~ In (VStr "__version__") exported /\
    is_Some (ns !! "__version__").
Proof.
  destruct (import_package env_installed) as [e|ns] eqn:H.
  - exfalso. vm_compute in H. discriminate H.
  - destruct (C7_all_lists_fmriprep_only env_installed ns H) as (exported & Hall).
    exists ns, exported. split; [reflexivity|exact Hall].
Defined.

(** C10: the version is looked up before [fmriprep] is imported.  If the
    lookup raises, the import of the package ends with that exception and
    the import of [fmriprep] is never attempted.  If the lookup returns a
    version string and [fmriprep] is missing or fails to import, the import of
    the package fails, with [__version__] already bound to that string.
    Whenever the import of [fmriprep] is attempted, the lookup came before
    it. *)
Theorem C10_version_before_submodule (env : environment) :
  (distributions env !! "fpreputils" = None ->
   import_package env = inl (PackageNotFoundError "fpreputils") /\
   ~ In (ImportModule "fpreputils.fmriprep") (trace (fst (__init__ env fresh))))
  /\ (forall v,
        distributions env !! "fpreputils" = Some (Some v) ->
        submodules env !! "fmriprep" <> Some RunsToEnd ->
        (exists e, import_package env = inl e /\
                   snd (__init__ env fresh) = inl e) /\
        globals (fst (__init__ env fresh)) !! "__version__" = Some (VStr v))
  /\ (forall before after,
        trace (fst (__init__ env fresh)) =
          before ++ ImportModule "fpreputils.fmriprep" :: after ->
        In (MetadataLookup "fpreputils") before).
Proof.
  split; [|split].
  - intros Hd. unfold import_package. rewrite (run_metadata_missing env Hd).
    split; [reflexivity|]. simpl.
    intros [H|[H|[]]]; discriminate H.
  - intros v Hd Hm. unfold import_package.
    rewrite (run_metadata_found env (Some v) Hd).
    destruct (submodules env !! "fmriprep") as [[|e]|]; [contradiction| |];
      (split; [eexists; split; reflexivity|]); cbn [fst globals];
      apply lookup_insert_eq.
  - intros before after Htrace.
    destruct (init_trace env) as [Ht|Ht]; rewrite Ht in Htrace; clear Ht;
      destruct before as [|b0 [|b1 [|b2 before]]]; simpl in Htrace;
      try discriminate Htrace.
    all: try (injection Htrace as _ H; discriminate H).
    + injection Htrace as _ <- _. simpl. auto.
    + injection Htrace as _ <- _. simpl. auto.
Qed.

Lemma C10_samples :
  (import_package env_no_metadata = inl (PackageNotFoundError "fpreputils") /\
   ~ In (ImportModule "fpreputils.fmriprep")
       (trace (fst (__init__ env_no_metadata fresh))))
  /\ ((exists e, import_package env_no_fmriprep = inl e /\
                 snd (__init__ env_no_fmriprep fresh) = inl e) /\
      globals (fst (__init__ env_no_fmriprep fresh)) !! "__version__" =
        Some (VStr "0.1"))
  /\ In (MetadataLookup "fpreputils")
       [ImportModule "importlib.metadata"; MetadataLookup "fpreputils"].
Proof.
  split; [|split].
  - apply (proj1 (C10_version_before_submodule env_no_metadata)).
    reflexivity.
  - apply (proj1 (proj2 (C10_version_before_submodule env_no_fmriprep)) "0.1").
    + reflexivity.
    + discriminate.
  - apply (proj2 (proj2 (C10_version_before_submodule env_installed))
             [ImportModule "importlib.metadata"; MetadataLookup "fpreputils"] []).
    vm_compute. reflexivity.
Defined.

(** ** Further facts about [setup.py] *)

Lemma ishidden_iff (name : string) :
  glob._ishidden name = true <-> exists rest, name = String "." rest.
Proof.
  destruct name as [|c name]; simpl.
  - split; [discriminate|]. intros [rest H]. discriminate H.
  - destruct (Ascii.eqb_spec c "."%char) as [->|Hc]; split; eauto.
    + discriminate.
    + intros [rest H]. injection H as H _. contradiction.
Qed.

Lemma join_bin_inj (a b : string) :
  os_path.join "bin" a = os_path.join "bin" b -> a = b.
Proof.
  destruct (os_path.startswith_sep b) eqn:Eb.
  - rewrite (join_bin_leading_sep b Eb).
    destruct (os_path.startswith_sep a) eqn:Ea.
    + rewrite (join_bin_leading_sep a Ea). auto.
    + rewrite (join_bin a Ea). intros <-. simpl in Eb. discriminate Eb.
  - rewrite (join_bin b Eb). apply join_bin_inv.
Qed.

Lemma bin_scripts_visible (cwd : directory) :
  bin_scripts cwd = Some (List.map (os_path.join "bin") (visible_names cwd)).
Proof. rewrite bin_scripts_eq, listdir_bin_entries. reflexivity. Qed.

Lemma map_join_bin_inj (l1 l2 : list string) :
  List.map (os_path.join "bin") l1 = List.map (os_path.join "bin") l2 -> l1 = l2.
Proof.
  revert l2. induction l1 as [|x l1 IH]; intros [|y l2] H; simpl in H;
    try discriminate; [reflexivity|].
  injection H as Hxy H. f_equal; [apply join_bin_inj, Hxy|apply IH, H].
Qed.

Lemma cut_no_sep (s : string) :
  existsb os_path.is_sep (list_ascii_of_string s) = false ->
  os_path.cut_after_last_sep s = (EmptyString, s).
Proof.
  induction s as [|c s IH]; simpl; [reflexivity|].
  intros H. apply orb_false_iff in H as [Hc Hs].
  rewrite (IH Hs), Hc. reflexivity.
Qed.

(** Splitting [bin/<name>] gives [bin] and [name] back. *)
Lemma split_bin_name (name : string) :
  valid_name name = true -> os_path.split ("bin/" +:+ name) = ("bin", name).
Proof.
  unfold valid_name. intros H. apply andb_true_iff in H as [_ H].
  apply negb_true_iff in H.
  assert (Hcut : os_path.cut_after_last_sep ("bin/" +:+ name) = ("bin/", name)).
  { change ("bin/" +:+ name)
      with (String "b" (String "i" (String "n" (String "/" name)))).
    cbn [os_path.cut_after_last_sep]. rewrite (cut_no_sep name H). reflexivity. }
  unfold os_path.split. rewrite Hcut. reflexivity.
Qed.

Lemma valid_visible_names (cwd : directory) :
  Forall (fun e => valid_name (fst e) = true) (bin_entries cwd) ->
  Forall (fun name => valid_name name = true) (visible_names cwd).
Proof.
  unfold visible_names. induction (bin_entries cwd) as [|[name n] es IH];
    intros H; simpl; [constructor|].
  inversion H as [|? ? Hname Hrest]; subst.
  destruct (glob._ishidden name); simpl; [apply IH, Hrest|].
  constructor; [exact Hname|apply IH, Hrest].
Qed.

(** X1: without a directory [bin/] (none at all, or a regular file of that
    name) the listing error is swallowed: [setup] is still called, with an
    empty [scripts] list. *)
Theorem X1_missing_bin_gives_no_scripts
    (find_packages : directory -> list string) (argv : list string)
    (cwd : directory) :
  lookup_entry "bin" cwd = None \/ lookup_entry "bin" cwd = Some File ->
  setup_py find_packages argv cwd =
    Some (Call "setup"
            [ ("name", VStr "fpreputils");
              ("version", VStr "0.1");
              ("packages", str_list (find_packages cwd));
              ("install_requires", VList []);
              ("include_package_data", VBool true);
              ("scripts", VList []) ]).
Proof.
  intros H. unfold setup_py.
  rewrite bin_scripts_eq. unfold glob._listdir.
  destruct H as [-> | ->]; reflexivity.
Qed.

Lemma X1_no_bin :
  setup_py (fun _ => ["fpreputils"]) ["setup.py"; "install"] no_bin =
    Some (Call "setup"
            [ ("name", VStr "fpreputils");
              ("version", VStr "0.1");
              ("packages", str_list ["fpreputils"]);
              ("install_requires", VList []);
              ("include_package_data", VBool true);
              ("scripts", VList []) ]).
Proof.
  apply (X1_missing_bin_gives_no_scripts (fun _ => ["fpreputils"])
           ["setup.py"; "install"] no_bin).
  left. reflexivity.
Defined.

(** X2: the [scripts] list is empty exactly when every name in [bin/]
    begins with a dot (in particular when [bin/] is empty or missing). *)
Theorem X2_no_scripts_iff_all_hidden
    (find_packages : directory -> list string) (argv : list string)
    (cwd : directory) :
  scripts_passed find_packages argv cwd = Some (VList []) <->
  (forall e, In e (bin_entries cwd) -> exists rest, fst e = String "." rest).
Proof.
  rewrite scripts_passed_eq, bin_scripts_visible. unfold visible_names. simpl.
  split.
  - intros H e He. apply ishidden_iff.
    injection H as H. apply map_eq_nil in H. apply map_eq_nil in H.
    destruct (glob._ishidden (fst e)) eqn:E; [reflexivity|].
    assert (Hin : In (fst e) []); [|destruct Hin].
    rewrite <- H. apply filter_In. split; [apply in_map, He|].
    rewrite E. reflexivity.
  - intros H. unfold str_list. do 2 f_equal.
    induction (bin_entries cwd) as [|e es IH]; [reflexivity|]. simpl.
    rewrite (proj2 (ishidden_iff (fst e)) (H e (or_introl eq_refl))). simpl.
    apply IH. intros e' He'. apply H. right. exact He'.
Qed.

Lemma X2_only_hidden :
  scripts_passed (fun _ => []) ["setup.py"; "install"] bin_only_hidden =
    Some (VList []).
Proof.
  apply (X2_no_scripts_iff_all_hidden (fun _ => []) ["setup.py"; "install"]
           bin_only_hidden).
  intros e [<-|[<-|[]]]; eexists; reflexivity.
Defined.

(** X3: when the names in [bin/] are pairwise distinct, so are the scripts:
    no path is passed twice. *)
Theorem X3_scripts_distinct
    (find_packages : directory -> list string) (argv : list string)
    (cwd : directory) :
  List.NoDup (List.map fst (bin_entries cwd)) ->
  exists scripts,
    scripts_passed find_packages argv cwd = Some (str_list scripts) /\
    List.NoDup scripts.
Proof.
  intros Hnd. eexists. split.
  { rewrite scripts_passed_eq, bin_scripts_visible. reflexivity. }
  unfold visible_names.
  induction (List.map fst (bin_entries cwd)) as [|x l IH]; simpl; [constructor|].
  inversion Hnd as [|? ? Hx Hl]; subst.
  destruct (glob._ishidden x); simpl; [apply IH, Hl|].
  constructor; [|apply IH, Hl].
  intros Hin. apply in_map_iff in Hin as (y & Hxy & Hy).
  apply join_bin_inj in Hxy. subst y.
  apply filter_In in Hy as [Hy _]. contradiction.
Qed.

Lemma X3_checkout :
  exists scripts,
    scripts_passed (fun _ => ["fpreputils"]) ["setup.py"; "install"] checkout =
      Some (str_list scripts) /\
    List.NoDup scripts.
Proof.
  apply (X3_scripts_distinct (fun _ => ["fpreputils"]) ["setup.py"; "install"]
           checkout).
  repeat constructor; simpl; intuition discriminate.
Defined.

(** X4: with file names as the system reports them, every script splits
    into the directory [bin] and the name of an entry of [bin/]: the base
    names of the scripts are the names in [bin/] that do not begin with a
    dot, in order, and no script lies deeper than [bin/] itself. *)
Theorem X4_scripts_split_into_bin_and_name
    (find_packages : directory -> list string) (argv : list string)
    (cwd : directory) :
  Forall (fun e => valid_name (fst e) = true) (bin_entries cwd) ->
  exists scripts,
    scripts_passed find_packages argv cwd = Some (str_list scripts) /\
    List.map os_path.split scripts =
      List.map (fun name => ("bin", name)) (visible_names cwd) /\
    (forall sub name, ~ In ("bin/" +:+ sub +:+ "/" +:+ name) scripts).
Proof.
  intros Hvalid. apply valid_visible_names in Hvalid.
  eexists. split.
  { rewrite scripts_passed_eq, bin_scripts_visible. reflexivity. }
  assert (Hsplit : forall name,
             In name (visible_names cwd) ->
             os_path.split (os_path.join "bin" name) = ("bin", name)).
  { intros name Hin.
    pose proof (proj1 (List.Forall_forall _ _) Hvalid name Hin) as Hname.
    simpl in Hname.
    rewrite (join_bin name (valid_name_no_leading_sep _ Hname)).
    apply split_bin_name, Hname. }
  split.
  - rewrite map_map. apply map_ext_in. exact Hsplit.
  - intros sub name Hin.
    apply in_map_iff in Hin as (x & Hjoin & Hx).
    apply join_bin_inv in Hjoin. subst x.
    pose proof (proj1 (List.Forall_forall _ _) Hvalid _ Hx) as Hname.
    simpl in Hname. unfold valid_name in Hname.
    apply andb_true_iff in Hname as [_ Hname].
    apply negb_true_iff in Hname.
    assert (Hsep : existsb os_path.is_sep
                     (list_ascii_of_string (sub +:+ "/" +:+ name)) = true).
    { clear. induction sub as [|c sub IH]; simpl; [reflexivity|].
      rewrite IH. apply orb_true_r. }
    rewrite Hsep in Hname. discriminate Hname.
Qed.

Lemma X4_checkout :
  exists scripts,
    scripts_passed (fun _ => ["fpreputils"]) ["setup.py"; "install"] checkout =
      Some (str_list scripts) /\
    List.map os_path.split scripts =
      [("bin", "run.sh"); ("bin", "helpers"); ("bin", "check.sh")] /\
    ~ In "bin/helpers/common.sh" scripts.
Proof.
  destruct (X4_scripts_split_into_bin_and_name (fun _ => ["fpreputils"])
              ["setup.py"; "install"] checkout)
    as (scripts & Hs & Hsplit & Hdeep).
  - repeat constructor.
  - exists scripts. split; [exact Hs|]. split; [exact Hsplit|].
    exact (Hdeep "helpers" "common.sh").
Defined.

(** X5: the source comment speaks of [bin/] and [shell/], but only [bin/] is
    listed: no path below [shell/] is ever among the scripts. *)
Theorem X5_nothing_from_shell
    (find_packages : directory -> list string) (argv : list string)
    (cwd : directory) (scripts : list string) :
  scripts_passed find_packages argv cwd = Some (str_list scripts) ->
  forall rest, ~ In ("shell/" +:+ rest) scripts.
Proof.
  rewrite scripts_passed_eq, bin_scripts_visible. simpl.
  intros H rest Hin. injection H as H.
  apply (f_equal VList), (str_list_inj _ scripts) in H.
  rewrite <- H in Hin. apply in_map_iff in Hin as (x & Hjoin & _).
  destruct (os_path.startswith_sep x) eqn:E.
  - rewrite (join_bin_leading_sep x E) in Hjoin. subst x.
    simpl in E. discriminate E.
  - rewrite (join_bin x E) in Hjoin. simpl in Hjoin. discriminate Hjoin.
Qed.

Lemma X5_checkout :
  scripts_passed (fun _ => ["fpreputils"]) ["setup.py"; "install"] checkout =
    Some (str_list ["bin/run.sh"; "bin/helpers"; "bin/check.sh"])
  /\ ~ In "shell/env.sh" ["bin/run.sh"; "bin/helpers"; "bin/check.sh"].
Proof.
  split; [reflexivity|].
  apply (X5_nothing_from_shell (fun _ => ["fpreputils"]) ["setup.py"; "install"]
           checkout ["bin/run.sh"; "bin/helpers"; "bin/check.sh"] eq_refl "env.sh").
Defined.

(** X6: two build directories get the same scripts exactly when their
    [bin/] show the same names not beginning with a dot, in the same order.
    Dot files may come and go, and files may turn into directories, without
    any effect; a change of a visible name always shows. *)
Theorem X6_same_scripts_iff_same_visible_names
    (find_packages : directory -> list string) (argv1 argv2 : list string)
    (cwd1 cwd2 : directory) :
  scripts_passed find_packages argv1 cwd1 = scripts_passed find_packages argv2 cwd2
  <-> visible_names cwd1 = visible_names cwd2.
Proof.
  rewrite !scripts_passed_eq, !bin_scripts_visible. simpl. split.
  - intros H. injection H as H. apply map_join_bin_inj.
    apply str_list_inj. unfold str_list. f_equal. exact H.
  - intros ->. reflexivity.
Qed.

Lemma X6_hidden_files_do_not_matter :
  scripts_passed (fun _ => []) ["setup.py"; "install"] bin_with_hidden =
  scripts_passed (fun _ => []) ["setup.py"; "sdist"]
    [("bin", Dir [("run.sh", Dir [])])].
Proof.
  apply (X6_same_scripts_iff_same_visible_names (fun _ => [])
           ["setup.py"; "install"] ["setup.py"; "sdist"] bin_with_hidden
           [("bin", Dir [("run.sh", Dir [])])]).
  reflexivity.
Defined.

(** X7: listing is compositional.  If [bin/] holds the entries of one
    directory followed by those of another, its scripts are the scripts of the
    first followed by the scripts of the second; so a new entry at the end
    adds at most its own path, at the end. *)
Theorem X7_scripts_of_concatenated_listing
    (find_packages : directory -> list string) (argv : list string)
    (cwd cwd1 cwd2 : directory) :
  bin_entries cwd = bin_entries cwd1 ++ bin_entries cwd2 ->
  exists s1 s2,
    bin_scripts cwd1 = Some s1 /\
    bin_scripts cwd2 = Some s2 /\
    scripts_passed find_packages argv cwd = Some (str_list (s1 ++ s2)).
Proof.
  intros H. do 2 eexists.
  split; [apply bin_scripts_visible|]. split; [apply bin_scripts_visible|].
  rewrite scripts_passed_eq, bin_scripts_visible. simpl. do 2 f_equal.
  unfold visible_names. rewrite H, List.map_app, List.filter_app, List.map_app.
  reflexivity.
Qed.

Lemma X7_run_then_check :
  exists s1 s2,
    bin_scripts [("bin", Dir [("run.sh", File)])] = Some s1 /\
    bin_scripts [("bin", Dir [("check.sh", File)])] = Some s2 /\
    scripts_passed (fun _ => []) ["setup.py"; "install"] bin_run_check =
      Some (str_list (s1 ++ s2)).
Proof.
  apply (X7_scripts_of_concatenated_listing (fun _ => []) ["setup.py"; "install"]
           bin_run_check [("bin", Dir [("run.sh", File)])]
           [("bin", Dir [("check.sh", File)])]).
  reflexivity.
Defined.

(** X15: when [bin/] holds nothing but regular files whose names do not
    begin with a dot, the scripts are exactly the files under [bin/], in
    listing order. *)
Theorem X15_plain_files_are_the_scripts
    (find_packages : directory -> list string) (argv : list string)
    (cwd : directory) :
  Forall (fun e => valid_name (fst e) = true) (bin_entries cwd) ->
  (forall e, In e (bin_entries cwd) ->
             is_file (snd e) = true /\ glob._ishidden (fst e) = false) ->
  scripts_passed find_packages argv cwd = Some (str_list (files_under_bin cwd)).
Proof.
  intros Hvalid Hplain.
  apply (scripts_are_visible_entries find_packages argv cwd Hvalid).
  intros e He. destruct (Hplain e He) as [-> ->]. reflexivity.
Qed.

Lemma X15_run_check :
  scripts_passed (fun _ => []) ["setup.py"; "install"] bin_run_check =
    Some (str_list ["bin/run.sh"; "bin/check.sh"]).
Proof.
  apply (X15_plain_files_are_the_scripts (fun _ => []) ["setup.py"; "install"]
           bin_run_check).
  - repeat constructor.
  - intros e [<-|[<-|[]]]; split; reflexivity.
Defined.

(** ** Further facts about [__init__.py] *)





(** X10: when the metadata is found and the package has no module
    [fmriprep], the import of the package ends with an [ImportError] for the
    name [fmriprep]. *)
Theorem X10_missing_submodule_import_error
    (env : environment) (ov : option string) :
  distributions env !! "fpreputils" = Some ov ->
  submodules env !! "fmriprep" = None ->
  import_package env = inl (ImportError "fmriprep").
Proof.
  intros Hd Hm. unfold import_package.
  rewrite (run_metadata_found env ov Hd), Hm. reflexivity.
Qed.

Lemma X10_no_fmriprep :
  import_package env_no_fmriprep = inl (ImportError "fmriprep").
Proof.
  apply (X10_missing_submodule_import_error env_no_fmriprep (Some "0.1")).
  - reflexivity.
  - reflexivity.
Defined.

(** X11: the run of [__init__.py] depends on the surroundings only through
    the distribution [fpreputils] and the module [fmriprep]: other installed
    distributions and other modules of the package change neither the result
    nor the events. *)
Theorem X11_import_depends_on_two_entries (env1 env2 : environment) :
  distributions env1 !! "fpreputils" = distributions env2 !! "fpreputils" ->
  submodules env1 !! "fmriprep" = submodules env2 !! "fmriprep" ->
  __init__ env1 fresh = __init__ env2 fresh /\
  import_package env1 = import_package env2.
Proof.
  intros Hd Hm.
  assert (H : __init__ env1 fresh = __init__ env2 fresh).
  { destruct (distributions env2 !! "fpreputils") as [ov|] eqn:Hd2.
    - rewrite (run_metadata_found env1 ov Hd), (run_metadata_found env2 ov Hd2), Hm.
      reflexivity.
    - rewrite (run_metadata_missing env1 Hd), (run_metadata_missing env2 Hd2).
      reflexivity. }
  split; [exact H|]. unfold import_package. rewrite H. reflexivity.
Qed.

Lemma X11_crowded :
  __init__ env_crowded fresh = __init__ env_installed fresh /\
  import_package env_crowded = import_package env_installed.
Proof.
  apply (X11_import_depends_on_two_entries env_crowded env_installed).
  - vm_compute. reflexivity.
  - vm_compute. reflexivity.
Defined.


(** X13: the two files agree.  The name under which [__init__.py] looks the
    version up is the [name] that [setup.py] declares; so when the installed
    metadata carries the [version] that [setup.py] declares and [fmriprep]
    imports, [__version__] is that declared version, [0.1]. *)
Theorem X13_declared_version_is_exposed
    (find_packages : directory -> list string) (argv : list string)
    (cwd : directory) (c : call) (n v : string) (env : environment) :
  setup_py find_packages argv cwd = Some c ->
  kwarg "name" (kwargs c) = Some (VStr n) ->
  kwarg "version" (kwargs c) = Some (VStr v) ->
  distributions env !! n = Some (Some v) ->
  submodules env !! "fmriprep" = Some RunsToEnd ->
  In (MetadataLookup n) (trace (fst (__init__ env fresh))) /\
  exists ns,
    import_package env = inr ns /\
    ns !! "__version__" = Some (VStr v) /\
    v = "0.1".
Proof.
  intros Hc Hn Hv Hd Hm.
  unfold setup_py in Hc. rewrite bin_scripts_eq in Hc. simpl in Hc.
  injection Hc as <-. simpl in Hn, Hv.
  injection Hn as <-. injection Hv as <-.
  unfold import_package.
  rewrite (run_metadata_found env (Some "0.1") Hd), Hm. cbn [fst trace globals].
  split; [simpl; auto|].
  eexists. split; [reflexivity|]. split; [|reflexivity].
  rewrite !lookup_insert_ne by discriminate. apply lookup_insert_eq.
Qed.

Lemma X13_checkout_installed :
  In (MetadataLookup "fpreputils") (trace (fst (__init__ env_installed fresh))) /\
  exists ns,
    import_package env_installed = inr ns /\
    ns !! "__version__" = Some (VStr "0.1") /\
    "0.1" = "0.1".
Proof.
  apply (X13_declared_version_is_exposed (fun _ => ["fpreputils"])
           ["setup.py"; "install"] checkout
           (Call "setup"
              [ ("name", VStr "fpreputils");
                ("version", VStr "0.1");
                ("packages", str_list ["fpreputils"]);
                ("install_requires", VList []);
                ("include_package_data", VBool true);
                ("scripts", str_list ["bin/run.sh"; "bin/helpers"; "bin/check.sh"]) ])
           "fpreputils" "0.1" env_installed); reflexivity.
Defined.

(** X14: a run that ends with an exception has bound neither [fmriprep]
    nor [__all__], whichever statement raised. *)
Theorem X14_failed_import_binds_no_exports (env : environment) (e : exn) :
  import_package env = inl e ->
  globals (fst (__init__ env fresh)) !! "fmriprep" = None /\
  globals (fst (__init__ env fresh)) !! "__all__" = None.
Proof.
  unfold import_package.
  destruct (distributions env !! "fpreputils") as [ov|] eqn:Hd.
  - rewrite (run_metadata_found env ov Hd).
    destruct (submodules env !! "fmriprep") as [[|e']|]; [discriminate| |];
      intros _; cbn [fst globals];
      (split; rewrite !lookup_insert_ne by discriminate; apply lookup_empty).
  - rewrite (run_metadata_missing env Hd). intros _. cbn [fst globals].
    split; rewrite !lookup_insert_ne by discriminate; apply lookup_empty.
Qed.

Lemma X14_broken_fmriprep :
  globals (fst (__init__ env_broken_fmriprep fresh)) !! "fmriprep" = None /\
  globals (fst (__init__ env_broken_fmriprep fresh)) !! "__all__" = None.
Proof.
  apply (X14_failed_import_binds_no_exports env_broken_fmriprep
           (ImportError "nibabel")).
  vm_compute. reflexivity.
Defined.
